(** * extract_pdf_text.py: page-by-page text extraction into one text file

    The script is embedded as a computation over an explicit world: the
    file system, the set of importable packages, the open file handles, the
    standard output and a log of the operations performed on files.  Python
    exceptions are the [Raise] results of an exception-and-state monad; the
    world reached when an exception escapes is kept, because the [with]
    block and the partially written file are observable afterwards.

    The two programs the script delegates to are parameters of the
    development: the package installer (does [pip install] succeed?) and
    the PDF library (which pages, with which extraction results, does it
    find in the bytes of a file?).  The page sequence is taken as known once
    the reader is built, each page carrying what its extraction will do.

    File contents and extracted texts are character strings.  The codec
    that sits between the text written and the bytes stored (UTF-8, and a
    newline written as one newline character, as on POSIX systems) is not
    part of the model, and the operations on the output file succeed. *)

From Stdlib Require Import Ascii String.
From stdpp Require Import gmap strings list fin_maps.

(** ** Exceptions and results *)

Inductive exn : Set :=
  | ImportError          (* importlib / from-import: package not found *)
  | CalledProcessError   (* subprocess.check_call: non-zero exit of pip *)
  | FileNotFoundError    (* the library opens a path that does not exist *)
  | PdfReadError         (* the library rejects the bytes of the file *)
  | ExtractionError      (* page.extract_text() raises *)
  | ValueError.          (* I/O operation on a closed file *)

Inductive result (A : Type) : Type :=
  | Ok (a : A)
  | Raise (e : exn).
Arguments Ok {A} a.
Arguments Raise {A} e.

(** ** Pages of the external library *)

(** What [page.extract_text()] does on a page: it raises, or it returns
    [None] or a string. *)
Inductive extraction : Set :=
  | Raises
  | Yields (r : option string).

Record Page : Set := { extract_text_outcome : extraction }.

(** ** The world *)

Inductive event : Set :=
  | EvOpen (path : string)               (* open(path, 'w'): create or truncate *)
  | EvWrite (path : string) (s : string) (* f.write(s) *)
  | EvClose (path : string).             (* f.close(), by the with block *)

Record world : Type := World {
  files : gmap string string;   (* path to content *)
  site_packages : gset string;  (* packages that import finds *)
  handles : gset string;        (* paths open for writing *)
  stdout : list string;         (* what print has printed, one entry per call *)
  trace : list event            (* file operations, oldest first *)
}.

Definition set_files (f : gmap string string → gmap string string) (w : world) : world :=
  World (f (files w)) (site_packages w) (handles w) (stdout w) (trace w).
Definition set_site_packages (f : gset string → gset string) (w : world) : world :=
  World (files w) (f (site_packages w)) (handles w) (stdout w) (trace w).
Definition set_handles (f : gset string → gset string) (w : world) : world :=
  World (files w) (site_packages w) (f (handles w)) (stdout w) (trace w).
Definition set_stdout (f : list string → list string) (w : world) : world :=
  World (files w) (site_packages w) (handles w) (f (stdout w)) (trace w).
Definition log (e : event) (w : world) : world :=
  World (files w) (site_packages w) (handles w) (stdout w) (trace w ++ [e]).

(** ** The monad of the script: state and exceptions *)

Definition M (A : Type) : Type := world → result A * world.

Definition ret {A} (a : A) : M A := λ w, (Ok a, w).
Definition raise {A} (e : exn) : M A := λ w, (Raise e, w).
Definition bind {A B} (m : M A) (k : A → M B) : M B :=
  λ w, match m w with
       | (Ok a, w1) => k a w1
       | (Raise e, w1) => (Raise e, w1)
       end.

#[global] Instance M_ret : MRet M := @ret.
#[global] Instance M_bind : MBind M := λ A B k m, bind m k.

(** [try: body except ImportError: handler] *)
Definition try_except_ImportError (body handler : M unit) : M unit :=
  λ w, match body w with
       | (Raise ImportError, w1) => handler w1
       | r => r
       end.

(** [for x in l: body x] *)
Fixpoint for_each {A} (l : list A) (body : A → M unit) : M unit :=
  match l with
  | [] => mret ()
  | x :: l' => body x ;; for_each l' body
  end.

(** ** Primitive operations *)

Definition newline : string := String "010"%char "".

(** [x or ''] for [x] a string or [None] *)
Definition or_empty (x : option string) : string :=
  match x with
  | None => ""
  | Some "" => ""
  | Some s => s
  end.

Definition print (s : string) : M unit :=
  λ w, (Ok (), set_stdout (λ o, o ++ [s]) w).

(** [open(path, 'w', encoding='utf-8')]: the file is created, or truncated
    when it exists; the handle is identified with its path. *)
Definition open_w (path : string) : M string :=
  λ w, (Ok path,
        log (EvOpen path)
          (set_handles (λ h, {[path]} ∪ h) (set_files (λ fs, <[path := ""]> fs) w))).

(** [f.write(s)]: appends to the file; on a closed file it raises. *)
Definition write (f : string) (s : string) : M unit :=
  λ w, if decide (f ∈ handles w)
       then (Ok (),
             log (EvWrite f s)
               (set_files (λ fs, <[f := default "" (fs !! f) +:+ s]> fs) w))
       else (Raise ValueError, w).

Definition close (f : string) : M unit :=
  λ w, (Ok (), log (EvClose f) (set_handles (λ h, h ∖ {[f]}) w)).

(** [with open(path, 'w', ...) as f: body f]: the file is closed when the
    block is left, normally or by an exception, which is then re-raised. *)
Definition with_open_w (path : string) (body : string → M unit) : M unit :=
  λ w, match open_w path w with
       | (Ok f, w1) =>
           match body f w1 with
           | (Ok (), w2) => close f w2
           | (Raise e, w2) =>
               match close f w2 with
               | (_, w3) => (Raise e, w3)
               end
           end
       | (Raise e, w1) => (Raise e, w1)
       end.

Definition extract_text (page : Page) : M (option string) :=
  match extract_text_outcome page with
  | Raises => raise ExtractionError
  | Yields r => mret r
  end.

(** [importlib.import_module(pkg)], and the import done by
    [from pkg import ...]: the package is found or [ImportError] is raised. *)
Definition import_module (pkg : string) : M unit :=
  λ w, if decide (pkg ∈ site_packages w) then (Ok (), w) else (Raise ImportError, w).

Definition pkg : string := "pypdf".
Definition in_path : string := "ro.pdf".
Definition out_path : string := "ro_extracted.txt".

(** The process: exit status 0 when the script runs to its end, 1 when an
    exception escapes. *)
Definition exit_status {A} (r : result A) : Z :=
  match r with Ok _ => 0%Z | Raise _ => 1%Z end.

(** ** The script *)

Section Script.

(** [pip_install pkg] tells whether [python -m pip install pkg] exits with
    status zero. *)
Variable pip_install : string → bool.

(** [parse_pdf bytes] is what the library makes of a file's content: [None]
    when it rejects it, the page sequence otherwise. *)
Variable parse_pdf : string → option (list Page).

(** [subprocess.check_call([sys.executable, '-m', 'pip', 'install', pkg])] *)
Definition check_call_pip_install (pkg : string) : M unit :=
  λ w, if pip_install pkg
       then (Ok (), set_site_packages (λ sp, {[pkg]} ∪ sp) w)
       else (Raise CalledProcessError, w).

(** [PdfReader(path)]; the result stands for [reader.pages]. *)
Definition PdfReader (path : string) : M (list Page) :=
  λ w, match files w !! path with
       | None => (Raise FileNotFoundError, w)
       | Some bytes =>
           match parse_pdf bytes with
           | None => (Raise PdfReadError, w)
           | Some pages => (Ok pages, w)
           end
       end.

(** The script, line by line. *)
Definition main : M unit :=
  try_except_ImportError
    (import_module pkg)
    (check_call_pip_install pkg) ;;
  import_module pkg ;;
  reader ← PdfReader in_path ;
  with_open_w out_path (λ f,
    for_each reader (λ page,
      r ← extract_text page ;
      let text := or_empty r in
      write f text ;;
      write f newline)) ;;
  print "OK".

Definition run (w : world) : Z * world :=
  let (r, w') := main w in (exit_status r, w').

(** *** The pieces of the script

    [bootstrap] is lines 3 to 7 (make the library importable and import
    it) and [load_document] adds line 8 (open the input); [page_loop],
    below, is the loop of lines 10 to 13 and [convert] the [with] block
    around it.  Lemma [main_pieces] proves that [main] is their
    composition. *)
Definition bootstrap : M unit :=
  try_except_ImportError
    (import_module pkg)
    (check_call_pip_install pkg) ;;
  import_module pkg.

Definition load_document : M (list Page) :=
  bootstrap ;; PdfReader in_path.

End Script.

Definition page_loop (f : string) (pages : list Page) : M unit :=
  for_each pages (λ page,
    r ← extract_text page ;
    let text := or_empty r in
    write f text ;;
    write f newline).

Definition convert (pages : list Page) : M unit :=
  with_open_w out_path (λ f, page_loop f pages).

(** ** Observations used in the statements *)

(** The errors with which the opening of the document fails. *)
Definition open_failed (e : exn) : Prop :=
  e = FileNotFoundError ∨ e = PdfReadError.

(** The text the loop writes for a page whose extraction returns. *)
Definition page_text (p : Page) : string :=
  match extract_text_outcome p with
  | Yields r => or_empty r
  | Raises => ""
  end.

Definition yields (p : Page) : bool :=
  match extract_text_outcome p with
  | Yields _ => true
  | Raises => false
  end.

(** The extraction returns [None] or the empty string. *)
Definition yields_no_text (p : Page) : bool :=
  match extract_text_outcome p with
  | Yields None | Yields (Some EmptyString) => true
  | _ => false
  end.

(** No extraction raises: the loop reaches the end of the page sequence. *)
Definition completes (pages : list Page) : bool := forallb yields pages.

(** The texts of the pages that come before the first page whose
    extraction raises (all of them when none does). *)
Fixpoint processed (pages : list Page) : list string :=
  match pages with
  | [] => []
  | p :: pages' =>
      match extract_text_outcome p with
      | Yields r => or_empty r :: processed pages'
      | Raises => []
      end
  end.

(** The content made of the given lines, each followed by a newline. *)
Fixpoint render (lines : list string) : string :=
  match lines with
  | [] => ""
  | t :: lines' => t +:+ newline +:+ render lines'
  end.

(** The writes that put the given lines into file [f]: for each line, one
    write of its text and one write of a newline. *)
Definition write_events (f : string) (lines : list string) : list event :=
  flat_map (λ t, [EvWrite f t; EvWrite f newline]) lines.

(** Between worlds [w] and [w'] the output file was opened, exactly [lines]
    were written to it, one after the other, and it was closed; it now
    holds them. *)
Definition wrote_lines (w w' : world) (lines : list string) : Prop :=
  trace w' = trace w ++ EvOpen out_path :: write_events out_path lines
                     ++ [EvClose out_path] ∧
  files w' !! out_path = Some (render lines).

(** The world after the [with] block of lines 9 to 13, entered in world [w]
    for the page sequence [pages]. *)
Definition converted (pages : list Page) (w : world) : world :=
  World (<[out_path := render (processed pages)]> (files w))
        (site_packages w)
        (handles w ∖ {[out_path]})
        (stdout w)
        (trace w ++ EvOpen out_path :: write_events out_path (processed pages)
                 ++ [EvClose out_path]).

(** The world in which the script ends when the document has opened in
    world [w1], reached from [w]. *)
Definition finished (pages : list Page) (w w1 : world) : world :=
  World (<[out_path := render (processed pages)]> (files w))
        (site_packages w1)
        (handles w ∖ {[out_path]})
        (stdout w ++ if completes pages then ["OK"] else [])
        (trace w ++ EvOpen out_path :: write_events out_path (processed pages)
                 ++ [EvClose out_path]).

Definition is_newline (c : ascii) : bool := Ascii.eqb c "010".

Fixpoint count_newlines (s : string) : nat :=
  match s with
  | EmptyString => 0
  | String c s' => (if is_newline c then 1 else 0) + count_newlines s'
  end.

(** The newline characters inside the texts written for the pages. *)
Definition embedded_newlines (pages : list Page) : nat :=
  sum_list (map (λ p, count_newlines (page_text p)) pages).

(** A text with no newline character in it. *)
Definition single_line (s : string) : bool := Nat.eqb (count_newlines s) 0.

(** The extraction returns a non-empty string. *)
Definition yields_text (p : Page) : bool :=
  match extract_text_outcome p with
  | Yields (Some (String _ _)) => true
  | _ => false
  end.

(** *** The reading side

    The script only writes.  The two readers below are the ones the
    properties on lines speak of: splitting the content on newline
    characters, and reading the file back line by line. *)

(** [s.split('\n')]: the pieces of [s] between newline characters; one more
    piece than there are newlines. *)
Fixpoint split_lines (s : string) : list string :=
  match s with
  | EmptyString => [""]
  | String c s' =>
      if is_newline c then "" :: split_lines s'
      else match split_lines s' with
           | [] => [String c ""]
           | l :: ls => String c l :: ls
           end
  end.

(** [f.readlines()] without newline translation: every line keeps its
    newline, and a last line without one is returned as it is.  [line]
    holds the characters of the current line read so far. *)
Fixpoint readlines_from (line : string) (s : string) : list string :=
  match s with
  | EmptyString => match line with EmptyString => [] | _ => [line] end
  | String c s' =>
      if is_newline c then (line +:+ newline) :: readlines_from "" s'
      else readlines_from (line +:+ String c "") s'
  end.

Definition readlines (s : string) : list string := readlines_from "" s.

(** Removes the newline that ends a line, if there is one. *)
Fixpoint strip_newline (line : string) : string :=
  match line with
  | EmptyString => ""
  | String c EmptyString => if is_newline c then "" else line
  | String c rest => String c (strip_newline rest)
  end.

Definition read_back (content : string) : list string :=
  map strip_newline (readlines content).

(** *** Properties of an output content *)

(** Line [i] of the content, split on newlines, is the text extracted from
    page [i], for every page [i] that the loop has extracted. *)
Definition lines_match_pages (content : string) (pages : list Page) : Prop :=
  ∀ i t, processed pages !! i = Some t → split_lines content !! i = Some t.

(** Reading the content back gives, page by page, the string that the
    extraction returned. *)
Definition recovers (content : string) (pages : list Page) : Prop :=
  map extract_text_outcome pages = map (λ s, Yields (Some s)) (read_back content).

(** *** Properties of a log *)



(** ** Sample inputs *)

Definition text_page (s : string) : Page := {| extract_text_outcome := Yields (Some s) |}.
Definition blank_page : Page := {| extract_text_outcome := Yields None |}.
Definition broken_page : Page := {| extract_text_outcome := Raises |}.

(** A library that finds the given pages in every file, and one that
    rejects every file. *)
Definition library_finding (pages : list Page) : string → option (list Page) :=
  λ _, Some pages.
Definition library_rejecting : string → option (list Page) := λ _, None.

Definition pip_works : string → bool := λ _, true.
Definition pip_fails : string → bool := λ _, false.

(** The library is installed and the input is there; no output yet. *)
Definition ready_world : world :=
  World {[ in_path := "%PDF-1.7" ]} {[ pkg ]} ∅ [] [].

(** The same with an output file left by somebody else. *)
Definition stale_world : world :=
  World (<[ out_path := "old content" ]> {[ in_path := "%PDF-1.7" ]}) {[ pkg ]} ∅ [] [].

(** The library is not installed yet. *)
Definition fresh_world : world :=
  World {[ in_path := "%PDF-1.7" ]} ∅ ∅ [] [].

(** The input file is missing. *)
Definition no_input_world : world :=
  World {[ out_path := "old content" ]} {[ pkg ]} ∅ [] [].

Definition hello_pages : list Page :=
  [text_page "Hello"; blank_page; text_page "World"].

(** A page whose text has two lines, followed by a page with one. *)
Definition two_line_page : Page := text_page ("a" +:+ newline +:+ "b").
Definition newline_pages : list Page := [two_line_page; text_page "c"].

Definition greeting_pages : list Page := [text_page "Hello"; text_page "World"].

(** A page in the middle on which the extraction raises. *)
Definition damaged_pages : list Page :=
  [text_page "Hello"; broken_page; text_page "World"].

(** A library that finds the given pages in the file with the given
    content and rejects every other file. *)
Definition library_for (known : string) (pages : list Page)
    : string → option (list Page) :=
  λ bytes, if String.eqb bytes known then Some pages else None.

(** * Proofs *)

(** ** Strings *)

Lemma app_nil_l (s : string) : "" +:+ s = s.
Proof. reflexivity. Qed.

Lemma app_cons (c : ascii) (s t : string) : String c s +:+ t = String c (s +:+ t).
Proof. reflexivity. Qed.

Lemma app_nil_r (s : string) : s +:+ "" = s.
Proof. induction s as [|c s IH]; [done|]. by rewrite app_cons, IH. Qed.

Lemma app_assoc (s t u : string) : (s +:+ t) +:+ u = s +:+ (t +:+ u).
Proof. induction s as [|c s IH]; [done|]. by rewrite !app_cons, IH. Qed.

Lemma count_newlines_app (s t : string) :
  count_newlines (s +:+ t) = count_newlines s + count_newlines t.
Proof.
  induction s as [|c s IH]; [done|].
  rewrite app_cons. simpl. rewrite IH. lia.
Qed.

Lemma count_newlines_newline : count_newlines newline = 1.
Proof. reflexivity. Qed.

(** ** Worlds *)

Lemma world_eta (w : world) :
  World (files w) (site_packages w) (handles w) (stdout w) (trace w) = w.
Proof. by destruct w. Qed.

(** ** Open handles *)

Lemma handle_open (f : string) (h : gset string) : f ∈ {[f]} ∪ h.
Proof. apply elem_of_union_l. by apply elem_of_singleton. Qed.

Lemma handle_closed (f : string) (h : gset string) : f ∉ h ∖ {[f]}.
Proof. rewrite elem_of_difference, elem_of_singleton. by intros [_ ?]. Qed.

Lemma handles_open_close (f : string) (h : gset string) :
  ({[f]} ∪ h) ∖ {[f]} = h ∖ {[f]}.
Proof.
  apply set_eq. intros x.
  rewrite !elem_of_difference, elem_of_union, elem_of_singleton. tauto.
Qed.

(** ** The page loop *)

Lemma render_app (l1 l2 : list string) :
  render (l1 ++ l2) = render l1 +:+ render l2.
Proof.
  induction l1 as [|t l1 IH]; [done|].
  simpl. by rewrite IH, !app_assoc.
Qed.

Lemma length_write_events (f : string) (lines : list string) :
  length (write_events f lines) = 2 * length lines.
Proof. induction lines as [|t lines IH]; simpl; [done|]. rewrite IH. lia. Qed.

Lemma processed_completes (pages : list Page) :
  completes pages = true → processed pages = map page_text pages.
Proof.
  induction pages as [|p pages IH]; [done|].
  unfold completes, page_text, yields in *; simpl.
  destruct (extract_text_outcome p); [done|].
  simpl. intros H. by rewrite IH.
Qed.

Lemma processed_app_raises (pre post : list Page) (p : Page) :
  completes pre = true → extract_text_outcome p = Raises →
  processed (pre ++ p :: post) = map page_text pre.
Proof.
  intros Hpre Hp. induction pre as [|q pre IH]; simpl.
  - by rewrite Hp.
  - unfold completes, page_text, yields in *; simpl in *.
    destruct (extract_text_outcome q); [done|].
    f_equal. by apply IH.
Qed.

Lemma processed_app_yields (pre post : list Page) :
  completes pre = true →
  processed (pre ++ post) = map page_text pre ++ processed post.
Proof.
  intros Hpre. induction pre as [|q pre IH]; simpl; [done|].
  unfold completes, page_text, yields in *; simpl in *.
  destruct (extract_text_outcome q); [done|].
  f_equal. by apply IH.
Qed.

Lemma completes_app (pre post : list Page) :
  completes (pre ++ post) = completes pre && completes post.
Proof. apply forallb_app. Qed.

(** ** Lines of a content *)

Lemma count_newlines_render (lines : list string) :
  count_newlines (render lines) =
    length lines + sum_list (map count_newlines lines).
Proof.
  induction lines as [|t lines IH]; [done|].
  simpl. rewrite !count_newlines_app, count_newlines_newline, IH. lia.
Qed.

Lemma single_line_cons (c : ascii) (t : string) :
  single_line (String c t) = true →
  is_newline c = false ∧ single_line t = true.
Proof.
  unfold single_line. simpl. destruct (is_newline c); [done|]. by simpl.
Qed.

(** Splitting gives back a first line that has no newline in it. *)
Lemma split_lines_line (t rest : string) :
  single_line t = true →
  split_lines (t +:+ newline +:+ rest) = t :: split_lines rest.
Proof.
  induction t as [|c t IH]; intros Ht.
  - reflexivity.
  - apply single_line_cons in Ht as [Hc Ht].
    rewrite app_cons. simpl. by rewrite Hc, IH.
Qed.

Lemma split_lines_render (lines : list string) :
  forallb single_line lines = true →
  split_lines (render lines) = lines ++ [""].
Proof.
  induction lines as [|t lines IH]; [done|].
  simpl. intros [Ht Hl]%andb_prop.
  by rewrite split_lines_line, IH.
Qed.

Lemma readlines_from_line (line t rest : string) :
  single_line t = true →
  readlines_from line (t +:+ newline +:+ rest) =
    (line +:+ t +:+ newline) :: readlines_from "" rest.
Proof.
  revert line. induction t as [|c t IH]; intros line Ht.
  - reflexivity.
  - apply single_line_cons in Ht as [Hc Ht].
    rewrite app_cons. simpl. rewrite Hc, IH by done.
    by rewrite app_assoc.
Qed.

Lemma readlines_render (lines : list string) :
  forallb single_line lines = true →
  readlines (render lines) = map (λ t, t +:+ newline) lines.
Proof.
  unfold readlines. induction lines as [|t lines IH]; [done|].
  simpl. intros [Ht Hl]%andb_prop.
  by rewrite readlines_from_line, IH.
Qed.

Lemma strip_newline_line (t : string) : strip_newline (t +:+ newline) = t.
Proof.
  induction t as [|c t IH]; [done|].
  rewrite app_cons. simpl. rewrite IH.
  by destruct t.
Qed.

Lemma read_back_render (lines : list string) :
  forallb single_line lines = true →
  read_back (render lines) = lines.
Proof.
  intros Hl. unfold read_back. rewrite readlines_render by done.
  induction lines as [|t lines IH]; [done|].
  simpl in *. apply andb_prop in Hl as [_ Hl].
  by rewrite strip_newline_line, IH.
Qed.

Lemma forallb_map {A B} (f : A → B) (P : B → bool) (l : list A) :
  forallb P (map f l) = forallb (λ x, P (f x)) l.
Proof. induction l as [|x l IH]; simpl; [done|]. by rewrite IH. Qed.

Lemma render_cons_nonempty (t : string) (lines : list string) :
  render (t :: lines) ≠ "".
Proof. simpl. by destruct t. Qed.

(** ** Steps of the monad *)

Lemma bind_unfold {A B} (m : M A) (k : A → M B) (w : world) :
  (m ≫= k) w =
    match m w with
    | (Ok a, w1) => k a w1
    | (Raise e, w1) => (Raise e, w1)
    end.
Proof. reflexivity. Qed.

Lemma write_open (f s c : string) (w : world) :
  f ∈ handles w → files w !! f = Some c →
  write f s w =
    (Ok (), World (<[f := c +:+ s]> (files w)) (site_packages w) (handles w)
                  (stdout w) (trace w ++ [EvWrite f s])).
Proof.
  intros Hopen Hc. unfold write. rewrite decide_True by done.
  unfold log, set_files. simpl. by rewrite Hc.
Qed.

(** One iteration of the loop: nothing happens to the file when the
    extraction raises; the text and a newline are appended otherwise. *)
Lemma page_step (f c : string) (p : Page) (w : world) :
  f ∈ handles w → files w !! f = Some c →
  (r ← extract_text p ; let text := or_empty r in
   write f text ;; write f newline) w =
    match extract_text_outcome p with
    | Raises => (Raise ExtractionError, w)
    | Yields r =>
        (Ok (), World (<[f := c +:+ or_empty r +:+ newline]> (files w))
                      (site_packages w) (handles w) (stdout w)
                      (trace w ++ [EvWrite f (or_empty r); EvWrite f newline]))
    end.
Proof.
  intros Hopen Hc. rewrite bind_unfold. unfold extract_text.
  destruct (extract_text_outcome p) as [|r]; [done|].
  simpl. rewrite bind_unfold.
  rewrite (write_open f _ c) by done.
  erewrite write_open; [|done|simpl; apply lookup_insert_eq].
  simpl. rewrite insert_insert_eq, app_assoc, <- (assoc_L (++)). done.
Qed.

Lemma page_loop_cons (f : string) (p : Page) (pages : list Page) :
  page_loop f (p :: pages) =
    ((r ← extract_text p ; let text := or_empty r in
      write f text ;; write f newline) ;; page_loop f pages).
Proof. reflexivity. Qed.

(** The loop on an open file [f] whose content is [c]: it appends the
    lines of the pages processed and stops at the first extraction that
    raises. *)
Lemma page_loop_spec (f : string) (pages : list Page) (w : world) (c : string) :
  f ∈ handles w → files w !! f = Some c →
  page_loop f pages w =
    (if completes pages then Ok () else Raise ExtractionError,
     World (<[f := c +:+ render (processed pages)]> (files w))
           (site_packages w) (handles w) (stdout w)
           (trace w ++ write_events f (processed pages))).
Proof.
  revert w c. induction pages as [|p pages IH]; intros w c Hopen Hc.
  - simpl. rewrite app_nil_r, insert_id by done.
    by rewrite (right_id_L [] (++)), world_eta.
  - rewrite page_loop_cons, bind_unfold, (page_step f c) by done.
    unfold completes, yields. simpl.
    destruct (extract_text_outcome p) as [|r] eqn:Hp; simpl.
    + rewrite app_nil_r, insert_id by done.
      by rewrite (right_id_L [] (++)), world_eta.
    + erewrite IH; [|done|simpl; apply lookup_insert_eq].
      simpl. rewrite insert_insert_eq, !app_assoc, <- (assoc_L (++)). done.
Qed.

(** ** The with block *)

Lemma convert_spec (pages : list Page) (w : world) :
  convert pages w =
    (if completes pages then Ok () else Raise ExtractionError, converted pages w).
Proof.
  unfold convert, with_open_w, open_w.
  rewrite (page_loop_spec out_path pages _ "");
    [|simpl; apply handle_open|simpl; apply lookup_insert_eq].
  pose proof (handles_open_close out_path (handles w)) as Hh.
  unfold converted, close, log, set_handles, set_files.
  destruct (completes pages); simpl;
    by rewrite insert_insert_eq, app_nil_l, Hh, <- !(assoc_L (++)).
Qed.

Section Run.

Variable pip_install : string → bool.
Variable parse_pdf : string → option (list Page).

(** *** Lines 3 to 7 *)

Lemma bootstrap_spec (w : world) :
  bootstrap pip_install w =
    if decide (pkg ∈ site_packages w) then (Ok (), w)
    else if pip_install pkg
         then (Ok (), set_site_packages (λ sp, {[pkg]} ∪ sp) w)
         else (Raise CalledProcessError, w).
Proof.
  unfold bootstrap. rewrite bind_unfold.
  unfold try_except_ImportError, import_module, check_call_pip_install.
  destruct (decide (pkg ∈ site_packages w)) as [Hin|Hout].
  - by rewrite decide_True.
  - destruct (pip_install pkg); [|done].
    rewrite decide_True; [done|]. simpl. set_solver.
Qed.

(** The bootstrap touches nothing but the set of importable packages, and
    only adds to it. *)
Lemma bootstrap_frame (w w1 : world) (r : result ()) :
  bootstrap pip_install w = (r, w1) →
  files w1 = files w ∧ handles w1 = handles w ∧ stdout w1 = stdout w ∧
  trace w1 = trace w ∧ site_packages w ⊆ site_packages w1.
Proof.
  rewrite bootstrap_spec. intros H.
  repeat case_match; simplify_eq; simpl; repeat split; try done; set_solver.
Qed.

(** *** Line 8 *)

Lemma PdfReader_frame (path : string) (w w1 : world) (r : result (list Page)) :
  PdfReader parse_pdf path w = (r, w1) → w1 = w.
Proof. unfold PdfReader. intros H. by repeat case_match; simplify_eq. Qed.

Lemma PdfReader_raises (path : string) (w w1 : world) (e : exn) :
  PdfReader parse_pdf path w = (Raise e, w1) →
  (e = FileNotFoundError ∧ files w !! path = None) ∨
  (e = PdfReadError ∧ ∃ bytes, files w !! path = Some bytes ∧ parse_pdf bytes = None).
Proof.
  unfold PdfReader. intros H.
  repeat case_match; simplify_eq; eauto.
Qed.

Lemma PdfReader_returns (path : string) (w w1 : world) (pages : list Page) :
  PdfReader parse_pdf path w = (Ok pages, w1) ↔
  w1 = w ∧ ∃ bytes, files w !! path = Some bytes ∧ parse_pdf bytes = Some pages.
Proof.
  unfold PdfReader. split.
  - intros H. repeat case_match; simplify_eq; eauto.
  - intros [-> (bytes & -> & ->)]. done.
Qed.

(** *** Lines 3 to 8 together *)

Lemma load_document_unfold (w : world) :
  load_document pip_install parse_pdf w =
    match bootstrap pip_install w with
    | (Ok _, w1) => PdfReader parse_pdf in_path w1
    | (Raise e, w1) => (Raise e, w1)
    end.
Proof. reflexivity. Qed.

(** *** The whole script *)

Lemma main_pieces (w : world) :
  main pip_install parse_pdf w =
    match load_document pip_install parse_pdf w with
    | (Ok pages, w1) => (convert pages ;; print "OK") w1
    | (Raise e, w1) => (Raise e, w1)
    end.
Proof.
  unfold main. rewrite load_document_unfold.
  unfold bootstrap. rewrite !bind_unfold.
  destruct (try_except_ImportError _ _ w) as [[[]|e] w0]; [|done].
  rewrite !bind_unfold.
  destruct (import_module pkg w0) as [[[]|e] w1]; [|done].
  rewrite bind_unfold. reflexivity.
Qed.

Lemma run_unfold (w : world) :
  run pip_install parse_pdf w =
    (exit_status (main pip_install parse_pdf w).1, (main pip_install parse_pdf w).2).
Proof. unfold run. by destruct (main pip_install parse_pdf w). Qed.

Local Abbreviation main := (main pip_install parse_pdf).
Local Abbreviation run := (run pip_install parse_pdf).
Local Abbreviation bootstrap := (bootstrap pip_install).
Local Abbreviation load_document := (load_document pip_install parse_pdf).
Local Abbreviation PdfReader := (PdfReader parse_pdf).

Lemma load_document_frame (w w1 : world) (r : result (list Page)) :
  load_document w = (r, w1) →
  files w1 = files w ∧ handles w1 = handles w ∧ stdout w1 = stdout w ∧
  trace w1 = trace w ∧ site_packages w ⊆ site_packages w1.
Proof.
  rewrite load_document_unfold.
  destruct (bootstrap w) as [[[]|e] w0] eqn:Hb; intros H.
  - apply PdfReader_frame in H as ->. by eapply bootstrap_frame.
  - simplify_eq. by eapply bootstrap_frame.
Qed.

(** When the document opens, the library was importable, at once or after
    its installation, the input file exists and the library accepts its
    content. *)
Lemma load_document_returns (w w1 : world) (pages : list Page) :
  load_document w = (Ok pages, w1) →
  (pkg ∈ site_packages w ∨ pip_install pkg = true) ∧
  pkg ∈ site_packages w1 ∧
  ∃ bytes, files w !! in_path = Some bytes ∧ parse_pdf bytes = Some pages.
Proof.
  rewrite load_document_unfold, bootstrap_spec. intros H.
  destruct (decide (pkg ∈ site_packages w)) as [Hin|Hout].
  - apply PdfReader_returns in H as [-> Hb]. auto.
  - destruct (pip_install pkg); [|done].
    apply PdfReader_returns in H as [-> Hb]. simpl in *.
    split; [by right|]. split; [apply handle_open|done].
Qed.

(** And conversely. *)
Lemma load_document_opens (w : world) (bytes : string) (pages : list Page) :
  pkg ∈ site_packages w ∨ pip_install pkg = true →
  files w !! in_path = Some bytes → parse_pdf bytes = Some pages →
  ∃ w1, load_document w = (Ok pages, w1).
Proof.
  intros Himp Hf Hp. rewrite load_document_unfold, bootstrap_spec.
  destruct (decide (pkg ∈ site_packages w)) as [Hin|Hout].
  - exists w. apply PdfReader_returns. eauto.
  - destruct Himp as [?| ->]; [done|].
    eexists. apply PdfReader_returns. split; [done|]. simpl. eauto.
Qed.

(** The script after the document has opened: the output is rewritten with
    the lines of the pages processed, and ["OK"] is printed when the loop
    reached the end. *)
Lemma main_opened (w w1 : world) (pages : list Page) :
  load_document w = (Ok pages, w1) →
  main w = (if completes pages then Ok () else Raise ExtractionError,
            finished pages w w1).
Proof.
  intros Hload. rewrite main_pieces, Hload, bind_unfold, convert_spec.
  apply load_document_frame in Hload as (Hf & Hh & Ho & Ht & _).
  unfold finished, converted, print, set_stdout. rewrite Hf, Hh, Ho, Ht.
  destruct (completes pages); simpl; [done|].
  by rewrite (right_id_L [] (++)).
Qed.

(** The script when the document has not opened: the exception escapes and
    only the set of importable packages may have changed. *)
Lemma main_not_opened (w w1 : world) (e : exn) :
  load_document w = (Raise e, w1) →
  main w = (Raise e, w1).
Proof. intros Hload. by rewrite main_pieces, Hload. Qed.

Lemma run_opened (w w1 : world) (pages : list Page) :
  load_document w = (Ok pages, w1) →
  run w = (if completes pages then 0%Z else 1%Z, finished pages w w1).
Proof.
  intros Hload. rewrite run_unfold, (main_opened w w1 pages Hload).
  by destruct (completes pages).
Qed.

Lemma run_not_opened (w w1 : world) (e : exn) :
  load_document w = (Raise e, w1) →
  run w = (1%Z, w1).
Proof. intros Hload. by rewrite run_unfold, (main_not_opened w w1 e Hload). Qed.

(** Whether the document opens depends on the world only through the set
    of importable packages and the content of the input file. *)
Lemma load_document_transfer (w w1 w2 : world) (pages : list Page) :
  load_document w = (Ok pages, w1) →
  site_packages w ⊆ site_packages w2 →
  files w2 !! in_path = files w !! in_path →
  ∃ w3, load_document w2 = (Ok pages, w3).
Proof.
  intros (Himp & _ & bytes & Hf & Hp)%load_document_returns Hsp Hin.
  apply (load_document_opens w2 bytes); [|congruence|done].
  destruct Himp; [left; set_solver|by right].
Qed.

Lemma load_document_raises_again (w w1 w2 : world) (e : exn) :
  load_document w = (Raise e, w1) →
  site_packages w2 = site_packages w1 →
  files w2 !! in_path = files w !! in_path →
  ∃ e2 w3, load_document w2 = (Raise e2, w3).
Proof.
  intros Hload Hsp Hin.
  destruct (load_document w2) as [[pages|e2] w3] eqn:Hload2; [|eauto].
  exfalso.
  apply load_document_returns in Hload2 as (Himp & _ & bytes & Hf & Hp).
  revert Hload. rewrite load_document_unfold, bootstrap_spec.
  destruct (decide (pkg ∈ site_packages w)) as [Hpkg|Hpkg].
  - intros [[_ Hnone]|[_ (b & Hb & Hnone)]]%PdfReader_raises; congruence.
  - destruct (pip_install pkg) eqn:Hpip.
    + intros [[_ Hnone]|[_ (b & Hb & Hnone)]]%PdfReader_raises;
        simpl in *; congruence.
    + intros [= <- <-]. rewrite Hsp in Himp. by destruct Himp.
Qed.

(** *** The world the script leaves *)

Lemma finished_wrote_lines (pages : list Page) (w w1 : world) :
  wrote_lines w (finished pages w w1) (processed pages).
Proof. split; [done|]. simpl. apply lookup_insert_eq. Qed.

Lemma finished_other_files (pages : list Page) (w w1 : world) (path : string) :
  path ≠ out_path → files (finished pages w w1) !! path = files w !! path.
Proof. intros Hne. simpl. by rewrite lookup_insert_ne. Qed.

(** ** The properties of the specification *)

(** C1, as amended.  For every document that opens with N pages and on
    which no extraction raises, the run writes exactly N newline-terminated
    lines to the output file: for each page, in order, one write of the
    page's text and one write of a newline.  The file then holds N
    newlines besides the ones inside the texts.  (As stated, for every
    document that opens, the property fails when an extraction raises.) *)
Theorem lines_equal_pages (w w1 : world) (pages : list Page) :
  load_document w = (Ok pages, w1) →
  completes pages = true →
  wrote_lines w (run w).2 (map page_text pages) ∧
  length (map page_text pages) = length pages ∧
  length (write_events out_path (map page_text pages)) = 2 * length pages ∧
  count_newlines (render (map page_text pages)) =
    length pages + embedded_newlines pages.
Proof.
  intros Hload Hall. rewrite (run_opened w w1 pages Hload). simpl.
  rewrite <- (processed_completes pages Hall). split; [|split; [|split]].
  - apply finished_wrote_lines.
  - rewrite (processed_completes pages Hall). apply length_map.
  - by rewrite length_write_events, (processed_completes pages Hall), length_map.
  - rewrite count_newlines_render, (processed_completes pages Hall).
    unfold embedded_newlines. by rewrite length_map, map_map.
Qed.

(** C2, as amended.  For every document that opens and in which no
    extracted page text contains a newline character, line i of the output
    file, split on newline characters, is the text extracted from page i,
    for every page i that the run extracted (every page when no extraction
    raises): the lines are the page texts in page order, followed by the
    empty piece after the last newline.  (As stated, the property fails when
    a page text contains a newline.) *)
Theorem line_is_page_text (w w1 : world) (pages : list Page) :
  load_document w = (Ok pages, w1) →
  forallb single_line (processed pages) = true →
  ∃ content,
    files (run w).2 !! out_path = Some content ∧
    split_lines content = processed pages ++ [""] ∧
    lines_match_pages content pages ∧
    (completes pages = true → processed pages = map page_text pages).
Proof.
  intros Hload Hsingle. rewrite (run_opened w w1 pages Hload). simpl.
  exists (render (processed pages)).
  pose proof (split_lines_render _ Hsingle) as Hsplit.
  split; [apply lookup_insert_eq|]. split; [done|].
  split; [|apply processed_completes].
  intros i t Hi. rewrite Hsplit. by apply lookup_app_l_Some.
Qed.

(** C3.  A page whose extraction yields no text ([None] or the empty
    string) is written as the empty string followed by a newline: the run
    reaches the page after the lines of the pages before it, emits the
    empty line, and goes on with the pages after it.  The page does not
    make the run fail (the exit status is decided by the later pages), and
    when the later pages yield too there is one line per page. *)
Theorem empty_page_empty_line (w w1 : world) (pre post : list Page) (p : Page) :
  load_document w = (Ok (pre ++ p :: post), w1) →
  completes pre = true →
  yields_no_text p = true →
  page_text p = "" ∧
  wrote_lines w (run w).2 (map page_text pre ++ "" :: processed post) ∧
  (run w).1 = (if completes post then 0 else 1)%Z ∧
  (completes post = true →
     wrote_lines w (run w).2 (map page_text (pre ++ p :: post)) ∧
     length (map page_text (pre ++ p :: post)) = length (pre ++ p :: post)).
Proof.
  intros Hload Hpre Hp. rewrite (run_opened w _ _ Hload). simpl.
  assert (Htext : page_text p = "" ∧ yields p = true).
  { unfold yields_no_text, page_text, yields in *.
    destruct (extract_text_outcome p) as [|[[|c s]|]]; done. }
  destruct Htext as [Htext Hyields].
  assert (Hproc : processed (pre ++ p :: post) =
                  map page_text pre ++ "" :: processed post).
  { rewrite processed_app_yields by done. f_equal. simpl.
    unfold page_text, yields in *.
    destruct (extract_text_outcome p); [done|]. by rewrite Htext. }
  assert (Hcompl : completes (pre ++ p :: post) = completes post).
  { rewrite completes_app, Hpre. unfold completes. simpl. by rewrite Hyields. }
  split; [done|]. split; [|split].
  - rewrite <- Hproc. apply finished_wrote_lines.
  - by rewrite Hcompl.
  - intros Hpost. split; [|apply length_map].
    rewrite <- processed_completes by (by rewrite Hcompl).
    apply finished_wrote_lines.
Qed.

(** C4.  When the opening of the document fails (line 8 is reached and
    [PdfReader] raises, the input being missing or rejected by the
    library), the exception escapes: the error is of the open-failed kind,
    the exit status is not zero, and nothing has been done to any file: no
    file operation is logged, the file system is as it was (so the output
    file is not created), and nothing is printed. *)
Theorem open_failure_no_output (w w0 w1 : world) (e : exn) :
  bootstrap w = (Ok (), w0) →
  PdfReader in_path w0 = (Raise e, w1) →
  open_failed e ∧
  main w = (Raise e, w0) ∧
  (run w).1 ≠ 0%Z ∧
  files (run w).2 = files w ∧
  files (run w).2 !! out_path = files w !! out_path ∧
  trace (run w).2 = trace w ∧
  stdout (run w).2 = stdout w.
Proof.
  intros Hboot Hopen.
  assert (w1 = w0) as -> by (by eapply PdfReader_frame).
  assert (Hload : load_document w = (Raise e, w0)).
  { by rewrite load_document_unfold, Hboot. }
  destruct (load_document_frame _ _ _ Hload) as (Hf & _ & Ho & Ht & _).
  rewrite (run_not_opened _ _ _ Hload), (main_not_opened _ _ _ Hload). simpl.
  rewrite Hf. repeat split; try done.
  unfold open_failed.
  apply PdfReader_raises in Hopen as [[-> _]|[-> _]]; auto.
Qed.

(** C5, as amended.  For every document in which every page's extraction
    yields a non-empty text without a newline character in it, reading the
    output file back line by line gives each page's text followed by the
    newline appended for the page, and without that newline the text the
    extraction returned.  (As stated, the property fails when a page text
    contains a newline.) *)
Theorem round_trip (w w1 : world) (pages : list Page) :
  load_document w = (Ok pages, w1) →
  forallb yields_text pages = true →
  forallb (λ p, single_line (page_text p)) pages = true →
  ∃ content,
    files (run w).2 !! out_path = Some content ∧
    readlines content = map (λ p, page_text p +:+ newline) pages ∧
    read_back content = map page_text pages ∧
    recovers content pages.
Proof.
  intros Hload Htext Hsingle.
  assert (Hall : completes pages = true).
  { unfold completes. rewrite forallb_forall in *. intros p Hp.
    specialize (Htext p Hp). unfold yields_text, yields in *.
    by destruct (extract_text_outcome p). }
  rewrite (run_opened w w1 pages Hload). simpl.
  rewrite (processed_completes pages Hall).
  assert (Hlines : forallb single_line (map page_text pages) = true)
    by (by rewrite forallb_map).
  exists (render (map page_text pages)).
  split; [apply lookup_insert_eq|]. split; [|split].
  - by rewrite readlines_render, map_map.
  - by apply read_back_render.
  - unfold recovers. rewrite read_back_render, map_map by done.
    clear -Htext. induction pages as [|p pages IH]; [done|].
    simpl in *. apply andb_prop in Htext as [Hp Htext].
    rewrite <- IH by done. f_equal.
    unfold yields_text, page_text in *.
    by destruct (extract_text_outcome p) as [|[[|c s]|]].
Qed.

(** C6.  The conversion is deterministic.  Run again on the world that a
    run has left, the script leaves the same file system and the same exit
    status, whatever the first world was.  And two runs that open the same
    input, in worlds that may differ in everything else and in particular
    in what the output path holds, get the same pages from the library and
    leave the same output file and the same exit status. *)
Theorem run_deterministic (wa wb : world) :
  (files (run (run wa).2).2 = files (run wa).2 ∧
   (run (run wa).2).1 = (run wa).1) ∧
  (∀ wa1 wb1 pa pb,
     files wa !! in_path = files wb !! in_path →
     load_document wa = (Ok pa, wa1) →
     load_document wb = (Ok pb, wb1) →
     pa = pb ∧
     files (run wa).2 !! out_path = files (run wb).2 !! out_path ∧
     (run wa).1 = (run wb).1).
Proof.
  split.
  - destruct (load_document wa) as [[pages|e] w1] eqn:Hload.
    + rewrite (run_opened _ _ _ Hload). simpl.
      destruct (load_document_transfer wa w1 (finished pages wa w1) pages)
        as [w3 Hagain]; [done|..].
      { simpl. by apply load_document_frame in Hload as (_ & _ & _ & _ & ?). }
      { by apply finished_other_files. }
      rewrite (run_opened _ _ _ Hagain). simpl.
      by rewrite insert_insert_eq.
    + rewrite (run_not_opened _ _ _ Hload). simpl.
      destruct (load_document_raises_again wa w1 w1 e) as (e2 & w3 & Hagain);
        [done|done|..].
      { by apply load_document_frame in Hload as (-> & _). }
      rewrite (run_not_opened _ _ _ Hagain). simpl. split; [|done].
      by apply load_document_frame in Hagain as (-> & _).
  - intros wa1 wb1 pa pb Hin Ha Hb.
    assert (pa = pb) as <-.
    { apply load_document_returns in Ha as (_ & _ & ba & Hfa & Hpa).
      apply load_document_returns in Hb as (_ & _ & bb & Hfb & Hpb).
      congruence. }
    rewrite (run_opened _ _ _ Ha), (run_opened _ _ _ Hb). simpl.
    by rewrite !lookup_insert_eq.
Qed.

(** C7.  In every run in which the input opens, the output file is opened
    for writing first (created, or truncated), then receives for each page
    processed, in page order, one text and one newline (for every page
    when no extraction raises), and is closed at the end on every path:
    the handle is not open when the script ends, whether it ends normally
    or by an exception.  Only the output path changes in the file system,
    and what it holds at the end is the same whatever it held, or did not
    hold, before. *)
Theorem output_file_lifecycle (w w1 : world) (pages : list Page) :
  load_document w = (Ok pages, w1) →
  wrote_lines w (run w).2 (processed pages) ∧
  (completes pages = true → processed pages = map page_text pages) ∧
  (out_path ∉ handles (run w).2) ∧
  files (run w).2 = <[out_path := render (processed pages)]> (files w) ∧
  ∀ prior : option string,
    files (run (set_files (partial_alter (λ _, prior) out_path) w)).2
      = files (run (set_files (delete out_path) w)).2.
Proof.
  intros Hload. rewrite (run_opened _ _ _ Hload). simpl.
  split; [apply finished_wrote_lines|].
  split; [apply processed_completes|].
  split; [apply handle_closed|]. split; [done|].
  assert (Hany : ∀ f, ∃ w3,
            load_document (set_files (partial_alter f out_path) w) = (Ok pages, w3)).
  { intros f. apply (load_document_transfer w w1); [done|done|].
    simpl. by rewrite lookup_partial_alter_ne. }
  intros prior.
  destruct (Hany (λ _, prior)) as [w3 H3].
  destruct (Hany (λ _, None)) as [w4 H4].
  unfold delete, map_delete.
  rewrite (run_opened _ _ _ H3), (run_opened _ _ _ H4). simpl.
  apply map_eq. intros path.
  destruct (decide (path = out_path)) as [->|Hne].
  - by rewrite !lookup_insert_eq.
  - by rewrite !lookup_insert_ne, !lookup_partial_alter_ne.
Qed.

(** C8.  When the document opens and every page is extracted and written,
    the script prints "OK" and the exit status is 0.  "OK" is printed on
    full success only: a run that prints anything has extracted and
    written every page and exits with 0, and a run whose exit status is
    not 0 has printed nothing. *)
Theorem ok_iff_success (w : world) :
  (∀ pages w1,
     load_document w = (Ok pages, w1) → completes pages = true →
     (run w).1 = 0%Z ∧ stdout (run w).2 = stdout w ++ ["OK"]) ∧
  (stdout (run w).2 ≠ stdout w →
     (run w).1 = 0%Z ∧ stdout (run w).2 = stdout w ++ ["OK"] ∧
     ∃ pages w1, load_document w = (Ok pages, w1) ∧ completes pages = true ∧
                 wrote_lines w (run w).2 (map page_text pages)) ∧
  ((run w).1 ≠ 0%Z → stdout (run w).2 = stdout w).
Proof.
  split; [|split].
  - intros pages w1 Hload Hall.
    rewrite (run_opened _ _ _ Hload). simpl. by rewrite Hall.
  - destruct (load_document w) as [[pages|e] w1] eqn:Hload.
    + rewrite (run_opened _ _ _ Hload). simpl.
      destruct (completes pages) eqn:Hall.
      * intros _. split; [done|]. split; [done|].
        exists pages, w1. split; [done|]. split; [done|].
        rewrite <- (processed_completes pages Hall).
        apply finished_wrote_lines.
      * intros Hne. by rewrite (right_id_L [] (++)) in Hne.
    + rewrite (run_not_opened _ _ _ Hload). simpl.
      by apply load_document_frame in Hload as (_ & _ & -> & _).
  - destruct (load_document w) as [[pages|e] w1] eqn:Hload.
    + rewrite (run_opened _ _ _ Hload). simpl.
      destruct (completes pages); [done|].
      intros _. apply (right_id_L [] (++)).
    + rewrite (run_not_opened _ _ _ Hload). simpl.
      by apply load_document_frame in Hload as (_ & _ & -> & _).
Qed.

(** C9.  A document that opens and has no page is a success: the output
    file is opened (created or truncated) and closed with nothing written
    in between, it exists and is empty, "OK" is printed and the exit status
    is 0. *)
Theorem zero_pages (w w1 : world) :
  load_document w = (Ok [], w1) →
  (run w).1 = 0%Z ∧
  stdout (run w).2 = stdout w ++ ["OK"] ∧
  trace (run w).2 = trace w ++ [EvOpen out_path; EvClose out_path] ∧
  files (run w).2 = <[out_path := ""]> (files w) ∧
  files (run w).2 !! out_path = Some "" ∧
  out_path ∉ handles (run w).2.
Proof.
  intros Hload. rewrite (run_opened _ _ _ Hload). simpl.
  repeat split; try done; [apply lookup_insert_eq|apply handle_closed].
Qed.

(** C10.  When the extraction raises on page i (the pages before it having
    been extracted), the exception escapes and "OK" is not printed; the
    output file exists, is closed, and holds exactly the lines of pages 0
    to i-1, nothing having been written for page i or a later page.  That
    content is a strict prefix of the full output: whatever lines page i
    and the pages after it would have contributed, the full content is the
    content written followed by a non-empty rest. *)
Theorem extraction_error_prefix (w w1 : world) (pre post : list Page) (p : Page) :
  load_document w = (Ok (pre ++ p :: post), w1) →
  completes pre = true →
  extract_text_outcome p = Raises →
  main w = (Raise ExtractionError, (run w).2) ∧
  (run w).1 = 1%Z ∧
  stdout (run w).2 = stdout w ∧
  wrote_lines w (run w).2 (map page_text pre) ∧
  length (map page_text pre) = length pre ∧
  (out_path ∉ handles (run w).2) ∧
  ∀ rest : list string, length rest = length (p :: post) →
    ∃ suffix, suffix ≠ "" ∧
      render (map page_text pre ++ rest) = render (map page_text pre) +:+ suffix.
Proof.
  intros Hload Hpre Hp.
  assert (Hcompl : completes (pre ++ p :: post) = false).
  { rewrite completes_app, Hpre. unfold completes, yields. simpl. by rewrite Hp. }
  rewrite (main_opened _ _ _ Hload), (run_opened _ _ _ Hload), Hcompl. simpl.
  rewrite Hcompl, <- (processed_app_raises pre post p Hpre Hp).
  split; [done|]. split; [done|]. split; [apply (right_id_L [] (++))|].
  split; [apply finished_wrote_lines|].
  split; [by rewrite (processed_app_raises pre post p Hpre Hp), length_map|].
  split; [apply handle_closed|].
  intros [|t rest] Hlen; [done|].
  exists (render (t :: rest)). split; [apply render_cons_nonempty|].
  apply render_app.
Qed.

End Run.

(** * The properties on sample inputs *)

(** The example of the specification: page texts "Hello", none, "World". *)
Example hello_output :
  run pip_fails (library_finding hello_pages) ready_world =
    (0%Z,
     World (<[out_path := "Hello" +:+ newline +:+ newline +:+ "World" +:+ newline]>
              (files ready_world))
           {[ pkg ]} ∅ ["OK"]
           [EvOpen out_path;
            EvWrite out_path "Hello"; EvWrite out_path newline;
            EvWrite out_path ""; EvWrite out_path newline;
            EvWrite out_path "World"; EvWrite out_path newline;
            EvClose out_path]).
Proof. vm_compute. reflexivity. Qed.

(** The library has to be installed and the installation fails:
    [CalledProcessError] escapes from line 6. *)
Example installation_fails :
  main pip_fails (library_finding hello_pages) fresh_world
    = (Raise CalledProcessError, fresh_world).
Proof. reflexivity. Qed.

(** The library rejects the input: the old output file is left as it was. *)
Example input_rejected :
  main pip_fails library_rejecting stale_world = (Raise PdfReadError, stale_world).
Proof. reflexivity. Qed.

(** The three-page document of the specification: "Hello", no text,
    "World". *)
Lemma lines_equal_pages_witness :
  load_document pip_fails (library_finding hello_pages) ready_world
    = (Ok hello_pages, ready_world) ∧
  completes hello_pages = true ∧
  wrote_lines ready_world
    (run pip_fails (library_finding hello_pages) ready_world).2
    ["Hello"; ""; "World"] ∧
  length (map page_text hello_pages) = 3 ∧
  length (write_events out_path (map page_text hello_pages)) = 2 * 3 ∧
  count_newlines (render (map page_text hello_pages)) = 3 + 0.
Proof.
  split; [reflexivity|]. split; [reflexivity|].
  apply (lines_equal_pages pip_fails (library_finding hello_pages)
           ready_world ready_world hello_pages); reflexivity.
Defined.

(** A document that opens with one page whose extraction raises: the file
    is opened and closed, no line is written, so the lines written are not
    as many as the pages. *)
Lemma lines_equal_pages_counterexample :
  load_document pip_fails (library_finding [broken_page]) ready_world
    = (Ok [broken_page], ready_world) ∧
  trace (run pip_fails (library_finding [broken_page]) ready_world).2
    = [EvOpen out_path; EvClose out_path] ∧
  ¬ ∃ lines,
      length lines = length [broken_page] ∧
      wrote_lines ready_world
        (run pip_fails (library_finding [broken_page]) ready_world).2 lines.
Proof.
  split; [reflexivity|]. split; [reflexivity|].
  intros (lines & Hlen & Htrace & _).
  destruct lines as [|t lines]; [done|].
  vm_compute in Htrace. discriminate.
Qed.

Lemma line_is_page_text_witness :
  load_document pip_fails (library_finding hello_pages) ready_world
    = (Ok hello_pages, ready_world) ∧
  forallb single_line (processed hello_pages) = true ∧
  ∃ content,
    files (run pip_fails (library_finding hello_pages) ready_world).2 !! out_path
      = Some content ∧
    split_lines content = ["Hello"; ""; "World"; ""] ∧
    lines_match_pages content hello_pages ∧
    (completes hello_pages = true →
       processed hello_pages = map page_text hello_pages).
Proof.
  split; [reflexivity|]. split; [reflexivity|].
  apply (line_is_page_text pip_fails (library_finding hello_pages)
           ready_world ready_world hello_pages); reflexivity.
Defined.

(** Two pages, both extracted, the first with a newline inside its text:
    the file has three lines, and line 1 is the second half of page 0, not
    the text of page 1. *)
Lemma line_is_page_text_counterexample :
  load_document pip_fails (library_finding newline_pages) ready_world
    = (Ok newline_pages, ready_world) ∧
  completes newline_pages = true ∧
  ∃ content,
    files (run pip_fails (library_finding newline_pages) ready_world).2 !! out_path
      = Some content ∧
    map page_text newline_pages !! 1 = Some "c" ∧
    split_lines content !! 1 = Some "b" ∧
    ¬ lines_match_pages content newline_pages.
Proof.
  split; [reflexivity|]. split; [reflexivity|].
  exists ("a" +:+ newline +:+ "b" +:+ newline +:+ "c" +:+ newline).
  split; [reflexivity|]. split; [reflexivity|]. split; [reflexivity|].
  intros Hmatch. specialize (Hmatch 1 "c" eq_refl).
  vm_compute in Hmatch. discriminate.
Qed.

Lemma empty_page_empty_line_witness :
  load_document pip_fails (library_finding hello_pages) ready_world
    = (Ok ([text_page "Hello"] ++ blank_page :: [text_page "World"]), ready_world) ∧
  completes [text_page "Hello"] = true ∧
  yields_no_text blank_page = true ∧
  page_text blank_page = "" ∧
  wrote_lines ready_world
    (run pip_fails (library_finding hello_pages) ready_world).2
    ["Hello"; ""; "World"] ∧
  (run pip_fails (library_finding hello_pages) ready_world).1 = 0%Z ∧
  (completes [text_page "World"] = true →
     wrote_lines ready_world
       (run pip_fails (library_finding hello_pages) ready_world).2
       (map page_text hello_pages) ∧
     length (map page_text hello_pages) = length hello_pages).
Proof.
  split; [reflexivity|]. split; [reflexivity|]. split; [reflexivity|].
  apply (empty_page_empty_line pip_fails (library_finding hello_pages)
           ready_world ready_world [text_page "Hello"] [text_page "World"]
           blank_page); reflexivity.
Defined.

(** The input file is missing. *)
Lemma open_failure_no_output_witness :
  bootstrap pip_fails no_input_world = (Ok (), no_input_world) ∧
  PdfReader (library_finding hello_pages) in_path no_input_world
    = (Raise FileNotFoundError, no_input_world) ∧
  open_failed FileNotFoundError ∧
  main pip_fails (library_finding hello_pages) no_input_world
    = (Raise FileNotFoundError, no_input_world) ∧
  (run pip_fails (library_finding hello_pages) no_input_world).1 ≠ 0%Z ∧
  files (run pip_fails (library_finding hello_pages) no_input_world).2
    = files no_input_world ∧
  files (run pip_fails (library_finding hello_pages) no_input_world).2 !! out_path
    = Some "old content" ∧
  trace (run pip_fails (library_finding hello_pages) no_input_world).2 = [] ∧
  stdout (run pip_fails (library_finding hello_pages) no_input_world).2 = [].
Proof.
  split; [reflexivity|]. split; [reflexivity|].
  apply (open_failure_no_output pip_fails (library_finding hello_pages)
           no_input_world no_input_world no_input_world FileNotFoundError);
    reflexivity.
Defined.

Lemma round_trip_witness :
  load_document pip_fails (library_finding greeting_pages) ready_world
    = (Ok greeting_pages, ready_world) ∧
  forallb yields_text greeting_pages = true ∧
  forallb (λ p, single_line (page_text p)) greeting_pages = true ∧
  ∃ content,
    files (run pip_fails (library_finding greeting_pages) ready_world).2 !! out_path
      = Some content ∧
    readlines content = ["Hello" +:+ newline; "World" +:+ newline] ∧
    read_back content = ["Hello"; "World"] ∧
    recovers content greeting_pages.
Proof.
  split; [reflexivity|]. split; [reflexivity|]. split; [reflexivity|].
  apply (round_trip pip_fails (library_finding greeting_pages)
           ready_world ready_world greeting_pages); reflexivity.
Defined.

(** One page whose non-empty text has a newline inside: read back, the
    file has two lines, neither of which is the text of the page.  A
    document with the two halves as two pages leaves the same file, so
    that no reader can tell which texts the pages had. *)
Lemma round_trip_counterexample :
  load_document pip_fails (library_finding [two_line_page]) ready_world
    = (Ok [two_line_page], ready_world) ∧
  forallb yields_text [two_line_page] = true ∧
  ∃ content,
    files (run pip_fails (library_finding [two_line_page]) ready_world).2 !! out_path
      = Some content ∧
    read_back content = ["a"; "b"] ∧
    map page_text [two_line_page] = ["a" +:+ newline +:+ "b"] ∧
    ¬ recovers content [two_line_page] ∧
    files (run pip_fails (library_finding [text_page "a"; text_page "b"])
             ready_world).2 !! out_path = Some content.
Proof.
  split; [reflexivity|]. split; [reflexivity|].
  exists ("a" +:+ newline +:+ "b" +:+ newline).
  split; [reflexivity|]. split; [reflexivity|]. split; [reflexivity|].
  split; [|reflexivity].
  intros Hrec. vm_compute in Hrec. discriminate.
Qed.

(** Two runs on the same input, one in a world where the library has to be
    installed first and there is no output file, one in a world where the
    output file has old content. *)
Lemma run_deterministic_witness :
  files fresh_world !! in_path = files stale_world !! in_path ∧
  load_document pip_works (library_finding hello_pages) fresh_world
    = (Ok hello_pages, set_site_packages (λ sp, {[pkg]} ∪ sp) fresh_world) ∧
  load_document pip_works (library_finding hello_pages) stale_world
    = (Ok hello_pages, stale_world) ∧
  hello_pages = hello_pages ∧
  files (run pip_works (library_finding hello_pages) fresh_world).2 !! out_path
    = files (run pip_works (library_finding hello_pages) stale_world).2 !! out_path ∧
  (run pip_works (library_finding hello_pages) fresh_world).1
    = (run pip_works (library_finding hello_pages) stale_world).1.
Proof.
  split; [reflexivity|]. split; [reflexivity|]. split; [reflexivity|].
  apply (proj2 (run_deterministic pip_works (library_finding hello_pages)
                  fresh_world stale_world)
           (set_site_packages (λ sp, {[pkg]} ∪ sp) fresh_world) stale_world
           hello_pages hello_pages); reflexivity.
Defined.

(** The output file had old content before the run. *)
Lemma output_file_lifecycle_witness :
  load_document pip_fails (library_finding hello_pages) stale_world
    = (Ok hello_pages, stale_world) ∧
  wrote_lines stale_world
    (run pip_fails (library_finding hello_pages) stale_world).2
    ["Hello"; ""; "World"] ∧
  (completes hello_pages = true →
     processed hello_pages = map page_text hello_pages) ∧
  (out_path ∉ handles (run pip_fails (library_finding hello_pages) stale_world).2) ∧
  files (run pip_fails (library_finding hello_pages) stale_world).2
    = <[out_path := render ["Hello"; ""; "World"]]> (files stale_world) ∧
  ∀ prior : option string,
    files (run pip_fails (library_finding hello_pages)
             (set_files (partial_alter (λ _, prior) out_path) stale_world)).2
      = files (run pip_fails (library_finding hello_pages)
                 (set_files (delete out_path) stale_world)).2.
Proof.
  split; [reflexivity|].
  apply (output_file_lifecycle pip_fails (library_finding hello_pages)
           stale_world stale_world hello_pages); reflexivity.
Defined.

Lemma ok_iff_success_witness :
  load_document pip_fails (library_finding hello_pages) ready_world
    = (Ok hello_pages, ready_world) ∧
  completes hello_pages = true ∧
  (run pip_fails (library_finding hello_pages) ready_world).1 = 0%Z ∧
  stdout (run pip_fails (library_finding hello_pages) ready_world).2 = ["OK"].
Proof.
  split; [reflexivity|]. split; [reflexivity|].
  apply (proj1 (ok_iff_success pip_fails (library_finding hello_pages) ready_world)
           hello_pages ready_world); reflexivity.
Defined.

(** A document without pages, and an output file with old content. *)
Lemma zero_pages_witness :
  load_document pip_fails (library_finding []) stale_world = (Ok [], stale_world) ∧
  (run pip_fails (library_finding []) stale_world).1 = 0%Z ∧
  stdout (run pip_fails (library_finding []) stale_world).2 = ["OK"] ∧
  trace (run pip_fails (library_finding []) stale_world).2
    = [EvOpen out_path; EvClose out_path] ∧
  files (run pip_fails (library_finding []) stale_world).2
    = <[out_path := ""]> (files stale_world) ∧
  files (run pip_fails (library_finding []) stale_world).2 !! out_path = Some "" ∧
  out_path ∉ handles (run pip_fails (library_finding []) stale_world).2.
Proof.
  split; [reflexivity|].
  apply (zero_pages pip_fails (library_finding []) stale_world stale_world);
    reflexivity.
Defined.

(** The extraction raises on page 1 of three. *)
Lemma extraction_error_prefix_witness :
  load_document pip_fails (library_finding damaged_pages) stale_world
    = (Ok ([text_page "Hello"] ++ broken_page :: [text_page "World"]), stale_world) ∧
  completes [text_page "Hello"] = true ∧
  extract_text_outcome broken_page = Raises ∧
  main pip_fails (library_finding damaged_pages) stale_world
    = (Raise ExtractionError,
       (run pip_fails (library_finding damaged_pages) stale_world).2) ∧
  (run pip_fails (library_finding damaged_pages) stale_world).1 = 1%Z ∧
  stdout (run pip_fails (library_finding damaged_pages) stale_world).2 = [] ∧
  wrote_lines stale_world
    (run pip_fails (library_finding damaged_pages) stale_world).2 ["Hello"] ∧
  length (map page_text [text_page "Hello"]) = 1 ∧
  (out_path ∉ handles (run pip_fails (library_finding damaged_pages) stale_world).2) ∧
  ∀ rest : list string, length rest = 2 →
    ∃ suffix, suffix ≠ "" ∧
      render (["Hello"] ++ rest) = render ["Hello"] +:+ suffix.
Proof.
  split; [reflexivity|]. split; [reflexivity|]. split; [reflexivity|].
  apply (extraction_error_prefix pip_fails (library_finding damaged_pages)
           stale_world stale_world [text_page "Hello"] [text_page "World"]
           broken_page); reflexivity.
Defined.

(** * Further properties of the script *)

(** ** Lines 3 to 7: making the library importable *)

Section Bootstrap.

Variable pip_install : string → bool.
Variable parse_pdf : string → option (list Page).

Local Abbreviation main := (main pip_install parse_pdf).
Local Abbreviation run := (run pip_install parse_pdf).
Local Abbreviation bootstrap := (bootstrap pip_install).
Local Abbreviation load_document := (load_document pip_install parse_pdf).
Local Abbreviation PdfReader := (PdfReader parse_pdf).


(** The script in terms of what lines 3 to 7 leave. *)
Lemma main_after_bootstrap (w w0 : world) :
  bootstrap w = (Ok (), w0) →
  main w = (reader ← PdfReader in_path ; convert reader ;; print "OK") w0.
Proof.
  intros Hboot. rewrite main_pieces, load_document_unfold, Hboot, bind_unfold.
  by destruct (PdfReader in_path w0) as [[pages|e] w1].
Qed.

(** After line 8 the set of importable packages does not change. *)
Lemma main_keeps_site_packages (w w0 : world) :
  bootstrap w = (Ok (), w0) →
  site_packages (main w).2 = site_packages w0.
Proof.
  intros Hboot. rewrite (main_after_bootstrap w w0 Hboot), bind_unfold.
  destruct (PdfReader in_path w0) as [[pages|e] w1] eqn:Hopen;
    apply PdfReader_frame in Hopen as ->; [|done].
  rewrite bind_unfold, convert_spec.
  by destruct (completes pages).
Qed.

Lemma load_document_installation_fails (w : world) :
  pkg ∉ site_packages w →
  pip_install pkg = false →
  load_document w = (Raise CalledProcessError, w).
Proof.
  intros Hout Hpip. rewrite load_document_unfold, bootstrap_spec.
  by rewrite decide_False, Hpip.
Qed.

(** X2.  When the library cannot be imported and its installation fails,
    [CalledProcessError] escapes from line 6 and the script has done
    nothing: the world is the one it started in, and the exit status
    is 1. *)
Theorem installation_failure_aborts (w : world) :
  pkg ∉ site_packages w →
  pip_install pkg = false →
  main w = (Raise CalledProcessError, w) ∧ run w = (1%Z, w).
Proof.
  intros Hout Hpip.
  pose proof (load_document_installation_fails w Hout Hpip) as Hload.
  by rewrite (run_not_opened _ _ _ _ _ Hload), (main_not_opened _ _ _ _ _ Hload).
Qed.




(** ** The whole run: what it leaves alone *)


(** X7.  The script leaves no file open: when the output path is not open
    at the start, the open handles at the end are the ones at the start,
    however the script ends. *)
Theorem no_handle_left_open (w : world) :
  out_path ∉ handles w →
  handles (run w).2 = handles w.
Proof.
  intros Hclosed. destruct (load_document w) as [[pages|e] w1] eqn:Hload.
  - rewrite (run_opened _ _ _ _ _ Hload). simpl.
    apply set_eq. intros x. rewrite elem_of_difference, elem_of_singleton.
    split; [by intros [? _]|]. intros Hx. split; [done|]. by intros ->.
  - rewrite (run_not_opened _ _ _ _ _ Hload). simpl.
    by apply load_document_frame in Hload as (_ & -> & _).
Qed.


End Bootstrap.

(** X1.  When the library is importable at the start, the installer plays
    no role: the script gives the same result and the same final world
    whatever the installation would have done, and the set of importable
    packages is not touched. *)
Theorem installer_unused_when_installed
    (pip1 pip2 : string → bool) (parse_pdf : string → option (list Page))
    (w : world) :
  pkg ∈ site_packages w →
  main pip1 parse_pdf w = main pip2 parse_pdf w ∧
  site_packages (main pip1 parse_pdf w).2 = site_packages w.
Proof.
  intros Hin.
  assert (Hboot : ∀ pip, bootstrap pip w = (Ok (), w)).
  { intros pip. rewrite bootstrap_spec. by rewrite decide_True. }
  split.
  - by rewrite (main_after_bootstrap pip1 parse_pdf w w (Hboot pip1)),
               (main_after_bootstrap pip2 parse_pdf w w (Hboot pip2)).
  - by rewrite (main_keeps_site_packages pip1 parse_pdf w w (Hboot pip1)).
Qed.

(** X16.  The script asks the installer for the library only and the
    library for the input file only: two installers that agree on the
    library, and two libraries that agree on the content of the input
    file, give the same result and the same final world. *)
Theorem only_library_and_input_consulted
    (pip1 pip2 : string → bool) (parse1 parse2 : string → option (list Page))
    (w : world) :
  pip1 pkg = pip2 pkg →
  (∀ bytes, files w !! in_path = Some bytes → parse1 bytes = parse2 bytes) →
  main pip1 parse1 w = main pip2 parse2 w.
Proof.
  intros Hpip Hparse.
  assert (Hopen : ∀ w0, files w0 = files w →
            PdfReader parse1 in_path w0 = PdfReader parse2 in_path w0).
  { intros w0 Hf. unfold PdfReader. rewrite Hf.
    destruct (files w !! in_path) as [bytes|] eqn:Hin; [|done].
    by rewrite (Hparse bytes). }
  rewrite !main_pieces, !load_document_unfold, !bootstrap_spec, <- Hpip.
  destruct (decide (pkg ∈ site_packages w)); [by rewrite Hopen|].
  destruct (pip1 pkg); [by rewrite Hopen|done].
Qed.

(** ** Lines 9 to 13: the shape of what is written *)

Lemma string_length_app (s t : string) :
  String.length (s +:+ t) = String.length s + String.length t.
Proof.
  induction s as [|c s IH]; [done|].
  rewrite app_cons. simpl. by rewrite IH.
Qed.

Lemma length_render (lines : list string) :
  String.length (render lines) =
    sum_list (map String.length lines) + length lines.
Proof.
  induction lines as [|t lines IH]; [done|].
  simpl. rewrite !string_length_app, IH. simpl. lia.
Qed.

Lemma render_empty_iff (lines : list string) :
  render lines = "" ↔ lines = [].
Proof.
  split; [|by intros ->].
  destruct lines as [|t lines]; [done|].
  intros H. by apply render_cons_nonempty in H.
Qed.

Lemma render_ends_with_newline (t : string) (lines : list string) :
  ∃ s, render (t :: lines) = s +:+ newline.
Proof.
  revert t. induction lines as [|u lines IH]; intros t.
  - exists t. simpl. by rewrite app_nil_r.
  - destruct (IH u) as [s Hs]. exists (t +:+ newline +:+ s).
    change (render (t :: u :: lines)) with (t +:+ newline +:+ render (u :: lines)).
    by rewrite Hs, !app_assoc.
Qed.

Section Written.

Variable pip_install : string → bool.
Variable parse_pdf : string → option (list Page).

Local Abbreviation run := (run pip_install parse_pdf).
Local Abbreviation load_document := (load_document pip_install parse_pdf).

(** X9.  The output file never ends in the middle of a line: whenever the
    document opens, also when an extraction raises later, the file left
    by the run is empty or ends with a newline; and it is empty exactly
    when no page was written (no page at all, or the first extraction
    raised). *)
Theorem never_partial_line (w w1 : world) (pages : list Page) :
  load_document w = (Ok pages, w1) →
  ∃ content,
    files (run w).2 !! out_path = Some content ∧
    (content = "" ∨ ∃ s, content = s +:+ newline) ∧
    (content = "" ↔ processed pages = []).
Proof.
  intros Hload. rewrite (run_opened _ _ _ _ _ Hload). simpl.
  exists (render (processed pages)).
  split; [apply lookup_insert_eq|]. split; [|apply render_empty_iff].
  destruct (processed pages) as [|t lines]; [by left|right].
  apply render_ends_with_newline.
Qed.

(** X10.  The size of the output file: the characters of the texts
    written, and one more character for each page written. *)
Theorem output_size (w w1 : world) (pages : list Page) :
  load_document w = (Ok pages, w1) →
  ∃ content,
    files (run w).2 !! out_path = Some content ∧
    String.length content =
      sum_list (map String.length (processed pages)) + length (processed pages).
Proof.
  intros Hload. rewrite (run_opened _ _ _ _ _ Hload). simpl.
  exists (render (processed pages)).
  split; [apply lookup_insert_eq|apply length_render].
Qed.

End Written.

(** ** Lines 10 to 13: how the loop composes *)


Lemma processed_yields_text (p : Page) (pages : list Page) :
  processed (p :: pages) =
    if yields p then page_text p :: processed pages else [].
Proof.
  unfold yields, page_text. simpl. by destruct (extract_text_outcome p).
Qed.

Lemma processed_stops (pre post : list Page) (p : Page) :
  extract_text_outcome p = Raises →
  processed (pre ++ p :: post) = processed pre ∧
  completes (pre ++ p :: post) = false.
Proof.
  intros Hp. induction pre as [|q pre [IH1 IH2]].
  - simpl. unfold completes, yields. simpl. by rewrite Hp.
  - rewrite <- app_comm_cons, !processed_yields_text.
    unfold completes in *. simpl. rewrite IH1, IH2.
    by destruct (yields q).
Qed.

Lemma pages_alike (pa pb : list Page) :
  map yields pa = map yields pb →
  map page_text pa = map page_text pb →
  processed pa = processed pb ∧ completes pa = completes pb.
Proof.
  revert pb. induction pa as [|p pa IH]; intros [|q pb]; try done.
  intros [= Hy Hys] [= Ht Hts].
  destruct (IH pb Hys Hts) as [IH1 IH2].
  rewrite !processed_yields_text. unfold completes in *. simpl.
  by rewrite Hy, Ht, IH1, IH2.
Qed.

Lemma convert_determined (pa pb : list Page) (w : world) :
  processed pa = processed pb → completes pa = completes pb →
  convert pa w = convert pb w.
Proof.
  intros Hp Hc. rewrite !convert_spec. unfold converted. by rewrite Hp, Hc.
Qed.

(** X12.  The document made of two documents one after the other: when no
    extraction of the first raises, the output file is the output of the
    first followed by the output of the second, and the with block ends as
    it does for the second. *)
Theorem concatenated_documents (pa pb : list Page) (w wa wb : world) :
  completes pa = true →
  ∃ ca cb,
    files (convert pa wa).2 !! out_path = Some ca ∧
    files (convert pb wb).2 !! out_path = Some cb ∧
    files (convert (pa ++ pb) w).2 !! out_path = Some (ca +:+ cb) ∧
    (convert (pa ++ pb) w).1 = (convert pb wb).1.
Proof.
  intros Hpa. rewrite !convert_spec. simpl.
  exists (render (processed pa)), (render (processed pb)).
  rewrite !lookup_insert_eq, completes_app, Hpa.
  rewrite (processed_app_yields pa pb Hpa), render_app.
  by rewrite (processed_completes pa Hpa).
Qed.

(** X13.  The pages after a page whose extraction raises play no role:
    the with block does the same, and leaves the same world, whatever
    follows that page. *)
Theorem pages_after_failure_ignored
    (pre post1 post2 : list Page) (p : Page) (w : world) :
  extract_text_outcome p = Raises →
  convert (pre ++ p :: post1) w = convert (pre ++ p :: post2) w.
Proof.
  intros Hp.
  destruct (processed_stops pre post1 p Hp) as [Hp1 Hc1].
  destruct (processed_stops pre post2 p Hp) as [Hp2 Hc2].
  apply convert_determined; congruence.
Qed.

(** X14.  The with block depends on a page only through whether its
    extraction raises and through the text that line 11 makes of what it
    returns: two page sequences that agree on both are converted alike.
    In particular a page returning [None] and a page returning the empty
    string cannot be told apart afterwards. *)
Theorem none_and_empty_alike (pa pb : list Page) (w : world) :
  map yields pa = map yields pb →
  map page_text pa = map page_text pb →
  convert pa w = convert pb w.
Proof.
  intros Hy Ht. destruct (pages_alike pa pb Hy Ht).
  by apply convert_determined.
Qed.

(** X15.  Documents whose page texts have no newline inside are told
    apart by their output: when no extraction raises, two page sequences
    that leave the same output file have the same texts, page by page. *)
Theorem same_file_same_texts (pa pb : list Page) (wa wb : world) :
  completes pa = true → completes pb = true →
  forallb single_line (map page_text pa) = true →
  forallb single_line (map page_text pb) = true →
  files (convert pa wa).2 !! out_path = files (convert pb wb).2 !! out_path →
  map page_text pa = map page_text pb.
Proof.
  intros Hca Hcb Hsa Hsb. rewrite !convert_spec. simpl.
  rewrite !lookup_insert_eq, (processed_completes pa Hca),
    (processed_completes pb Hcb).
  intros [= Heq].
  by rewrite <- (read_back_render _ Hsa), <- (read_back_render _ Hsb), Heq.
Qed.

(** ** The further properties on sample inputs *)

Lemma installer_unused_when_installed_witness :
  pkg ∈ site_packages stale_world ∧
  main pip_works (library_finding hello_pages) stale_world
    = main pip_fails (library_finding hello_pages) stale_world ∧
  site_packages (main pip_works (library_finding hello_pages) stale_world).2
    = site_packages stale_world.
Proof.
  assert (Hin : pkg ∈ site_packages stale_world)
    by (simpl; by apply elem_of_singleton_2).
  split; [exact Hin|].
  exact (installer_unused_when_installed pip_works pip_fails
           (library_finding hello_pages) stale_world Hin).
Defined.

Lemma installation_failure_aborts_witness :
  (pkg ∉ site_packages fresh_world) ∧
  pip_fails pkg = false ∧
  main pip_fails (library_finding hello_pages) fresh_world
    = (Raise CalledProcessError, fresh_world) ∧
  run pip_fails (library_finding hello_pages) fresh_world = (1%Z, fresh_world).
Proof.
  assert (Hout : pkg ∉ site_packages fresh_world) by apply not_elem_of_empty.
  split; [exact Hout|]. split; [reflexivity|].
  exact (installation_failure_aborts pip_fails (library_finding hello_pages)
           fresh_world Hout eq_refl).
Defined.





(** A run that ends by an exception inside the with block. *)
Lemma no_handle_left_open_witness :
  (out_path ∉ handles ready_world) ∧
  handles (run pip_fails (library_finding damaged_pages) ready_world).2
    = handles ready_world.
Proof.
  assert (Hclosed : out_path ∉ handles ready_world) by apply not_elem_of_empty.
  split; [exact Hclosed|].
  exact (no_handle_left_open pip_fails (library_finding damaged_pages)
           ready_world Hclosed).
Defined.

Lemma never_partial_line_witness :
  load_document pip_fails (library_finding damaged_pages) stale_world
    = (Ok damaged_pages, stale_world) ∧
  ∃ content,
    files (run pip_fails (library_finding damaged_pages) stale_world).2 !! out_path
      = Some content ∧
    (content = "" ∨ ∃ s, content = s +:+ newline) ∧
    (content = "" ↔ processed damaged_pages = []).
Proof.
  split; [reflexivity|].
  exact (never_partial_line pip_fails (library_finding damaged_pages)
           stale_world stale_world damaged_pages eq_refl).
Defined.

Lemma output_size_witness :
  load_document pip_fails (library_finding hello_pages) stale_world
    = (Ok hello_pages, stale_world) ∧
  ∃ content,
    files (run pip_fails (library_finding hello_pages) stale_world).2 !! out_path
      = Some content ∧
    String.length content = 10 + 3.
Proof.
  split; [reflexivity|].
  exact (output_size pip_fails (library_finding hello_pages)
           stale_world stale_world hello_pages eq_refl).
Defined.

Lemma concatenated_documents_witness :
  completes greeting_pages = true ∧
  ∃ ca cb,
    files (convert greeting_pages ready_world).2 !! out_path = Some ca ∧
    files (convert damaged_pages stale_world).2 !! out_path = Some cb ∧
    files (convert (greeting_pages ++ damaged_pages) fresh_world).2 !! out_path
      = Some (ca +:+ cb) ∧
    (convert (greeting_pages ++ damaged_pages) fresh_world).1
      = (convert damaged_pages stale_world).1.
Proof.
  split; [reflexivity|].
  exact (concatenated_documents greeting_pages damaged_pages
           fresh_world ready_world stale_world eq_refl).
Defined.

Lemma pages_after_failure_ignored_witness :
  extract_text_outcome broken_page = Raises ∧
  convert ([text_page "Hello"] ++ broken_page :: [text_page "World"]) ready_world
    = convert ([text_page "Hello"] ++ broken_page :: []) ready_world.
Proof.
  split; [reflexivity|].
  exact (pages_after_failure_ignored [text_page "Hello"] [text_page "World"] []
           broken_page ready_world eq_refl).
Defined.

(** A page returning [None] against a page returning the empty string. *)
Lemma none_and_empty_alike_witness :
  map yields [blank_page; text_page "World"]
    = map yields [text_page ""; text_page "World"] ∧
  map page_text [blank_page; text_page "World"]
    = map page_text [text_page ""; text_page "World"] ∧
  convert [blank_page; text_page "World"] stale_world
    = convert [text_page ""; text_page "World"] stale_world.
Proof.
  split; [reflexivity|]. split; [reflexivity|].
  exact (none_and_empty_alike [blank_page; text_page "World"]
           [text_page ""; text_page "World"] stale_world eq_refl eq_refl).
Defined.

Lemma same_file_same_texts_witness :
  completes [blank_page; text_page "World"] = true ∧
  completes [text_page ""; text_page "World"] = true ∧
  forallb single_line (map page_text [blank_page; text_page "World"]) = true ∧
  forallb single_line (map page_text [text_page ""; text_page "World"]) = true ∧
  files (convert [blank_page; text_page "World"] ready_world).2 !! out_path
    = files (convert [text_page ""; text_page "World"] stale_world).2 !! out_path ∧
  map page_text [blank_page; text_page "World"]
    = map page_text [text_page ""; text_page "World"].
Proof.
  split; [reflexivity|]. split; [reflexivity|]. split; [reflexivity|].
  split; [reflexivity|]. split; [reflexivity|].
  exact (same_file_same_texts [blank_page; text_page "World"]
           [text_page ""; text_page "World"] ready_world stale_world
           eq_refl eq_refl eq_refl eq_refl eq_refl).
Defined.

(** A library that knows one file only, against one that accepts every
    file. *)
Lemma only_library_and_input_consulted_witness :
  pip_works pkg = (λ name, String.eqb name pkg) pkg ∧
  (∀ bytes, files stale_world !! in_path = Some bytes →
     library_finding hello_pages bytes = library_for "%PDF-1.7" hello_pages bytes) ∧
  main pip_works (library_finding hello_pages) stale_world
    = main (λ name, String.eqb name pkg) (library_for "%PDF-1.7" hello_pages)
        stale_world.
Proof.
  assert (Hparse : ∀ bytes, files stale_world !! in_path = Some bytes →
            library_finding hello_pages bytes
              = library_for "%PDF-1.7" hello_pages bytes)
    by (by intros bytes [= <-]).
  split; [reflexivity|]. split; [exact Hparse|].
  exact (only_library_and_input_consulted pip_works (λ name, String.eqb name pkg)
           (library_finding hello_pages) (library_for "%PDF-1.7" hello_pages)
           stale_world eq_refl Hparse).
Defined.
